(** * A shallow embedding of [src/web/api.py] (EncryptionAPIHandler)

    The handler is modelled as a function from a request and a machine
    state (file system and the log of spawned processes) to an optional
    response and a new state.  [None] stands for a Python exception that
    escapes [do_GET]/[do_POST]: [BaseHTTPRequestHandler] does not catch it,
    the server prints the traceback and closes the connection, so no
    response is written.

    The operating system and the library calls whose behaviour is not
    written in the repository (the working directory, the clock, the
    decoding of the body, [json.loads], [subprocess.run], the codec of
    text files, the permissions of the server's user and the memory
    available) are fields of an environment record [Env]; theorems
    quantify over every environment.

    A Python str is a Rocq [string] of code points below 256, one [ascii]
    per code point, and bytes are a [string] of bytes. *)

From Stdlib Require Import ZArith Ascii String List Bool Lia.
From stdpp Require Import base gmap strings list.
Import ListNotations.
Open Scope string_scope.
#[local] Set Warnings "-register-all".

(* ------------------------------------------------------------------ *)
(** ** JSON values as [json.loads] returns them *)

Inductive json : Type :=
| JNull
| JBool (b : bool)
| JInt (z : Z)
| JFloat (repr : string)              (* a Python float, by its repr *)
| JStr (s : string)
| JArr (xs : list json)
| JObj (kvs : list (string * json)).  (* members in source order *)

(** [dict.get(k, d)]: for duplicate keys the last member wins, as in the
    dict that [json.loads] builds. *)
Definition dict_get (kvs : list (string * json)) (k : string) (d : json) : json :=
  match find (fun kv => String.eqb (fst kv) k) (rev kvs) with
  | Some (_, v) => v
  | None => d
  end.

(* ------------------------------------------------------------------ *)
(** ** File system *)

Inductive node : Type := File (contents : string) | Dir | Link (target : string).

(** Absolute paths as lists of components; the root directory [[]] always
    exists and is not stored. *)
Abbreviation FS := (gmap (list string) node).

Definition is_dir (m : FS) (p : list string) : bool :=
  match p with
  | [] => true
  | _ => match m !! p with Some Dir => true | _ => false end
  end.

Definition parent (p : list string) : list string := removelast p.

(** Split a path string at '/'. *)
Fixpoint split_slash_aux (s : string) (cur : string) : list string :=
  match s with
  | EmptyString => [cur]
  | String c s' =>
      if Ascii.eqb c "/"%char then cur :: split_slash_aux s' ""
      else split_slash_aux s' (cur ++ String c "")
  end.

Definition split_slash (s : string) : list string := split_slash_aux s "".

(** Linux's limits: at most 40 symbolic links followed in one lookup
    ([ELOOP] beyond), and a path string shorter than 4096 bytes
    ([ENAMETOOLONG] otherwise). *)
Definition MAXSYMLINKS : nat := 40.
Definition PATH_MAX : nat := 4096.

(** Path resolution as the kernel does it.  Every component is looked up
    in a directory, which needs search permission on it ([srch]); [.]
    stays, [..] goes to the parent of the (physical) current directory,
    the parent of the root being the root; an empty component (a doubled,
    leading or trailing slash) only needs the current path to be a
    directory.  A symbolic link met before the last component, or as the
    last one when [follow_last] is set, is replaced by its target, read
    from the root when it starts with '/' and from the link's directory
    otherwise; following it needs [follow] (the protected-symlinks check)
    and counts against the [links] budget; an empty target fails.  The
    last component, once no link, is returned without being looked up
    (it may not exist). *)
Fixpoint walk (links : nat) (srch follow : list string -> bool) (m : FS)
    (follow_last : bool) (cur : list string) (comps : list string) {struct links}
  : option (list string) :=
  let fix go (cur : list string) (comps : list string) : option (list string) :=
    match comps with
    | [] => Some cur
    | c :: rest =>
        if String.eqb c "" then
          if is_dir m cur then go cur rest else None
        else if is_dir m cur && srch cur then
          if String.eqb c "." then go cur rest
          else if String.eqb c ".." then go (parent cur) rest
          else
            match m !! (app cur [c]) with
            | Some (Link t) =>
                if match rest with [] => follow_last | _ => true end then
                  match links with
                  | O => None
                  | S l =>
                      if follow (app cur [c]) && negb (String.eqb t "") then
                        walk l srch follow m follow_last
                             (match t with String d _ => if Ascii.eqb d "/"%char then [] else cur
                                         | EmptyString => cur end)
                             (app (split_slash t) rest)
                      else None
                  end
                else go (app cur [c]) rest
            | _ => go (app cur [c]) rest
            end
        else None
    end in
  go cur comps.

(** Paths handed to the OS are absolute here (the working directory is
    absolute, the scratch paths are literal), so resolution starts at the
    root; the leading '/' yields an empty first component.  The calls the
    handler makes ([stat], [open]) follow a final symbolic link. *)
Definition resolve_path (srch follow : list string -> bool) (m : FS) (p : string)
  : option (list string) :=
  if (String.length p <? PATH_MAX)%nat
  then walk MAXSYMLINKS srch follow m true [] (split_slash p)
  else None.

(** Universal newlines of a text-mode read: [\r\n] and a lone [\r] become
    [\n]. *)
Definition CR : ascii := ascii_of_nat 13.
Definition LF : ascii := ascii_of_nat 10.

Fixpoint universal_newlines (s : string) : string :=
  match s with
  | EmptyString => EmptyString
  | String c s' =>
      if Ascii.eqb c CR then
        match s' with
        | String d s'' =>
            if Ascii.eqb d LF then String LF (universal_newlines s'')
            else String LF (universal_newlines s')
        | EmptyString => String LF EmptyString
        end
      else String c (universal_newlines s')
  end.

(* ------------------------------------------------------------------ *)
(** ** Machine state and the exception/state monad *)

Record St : Type := mkSt {
  fs : FS;
  calls : list (list string)        (* argv of every process spawned *)
}.

Definition PyM (A : Type) : Type := St -> option A * St.

Definition ret {A} (a : A) : PyM A := fun st => (Some a, st).
Definition raise {A} : PyM A := fun st => (None, st).
Definition bind {A B} (m : PyM A) (k : A -> PyM B) : PyM B :=
  fun st => match m st with
            | (Some a, st') => k a st'
            | (None, st') => (None, st')
            end.

Notation "'let*' x ':=' m 'in' k" := (bind m (fun x => k))
  (at level 200, x name, m at level 100, k at level 200).

Definition of_option {A} (o : option A) : PyM A :=
  match o with Some a => ret a | None => raise end.

Definition get_fs : PyM FS := fun st => (Some (fs st), st).

(* ------------------------------------------------------------------ *)
(** ** Python built-ins used by the handler *)

Definition is_digit (c : ascii) : bool :=
  (48 <=? nat_of_ascii c)%nat && (nat_of_ascii c <=? 57)%nat.

Definition digit_val (c : ascii) : Z := Z.of_nat (nat_of_ascii c - 48).

(** The characters [int()] strips around a numeral, among the code points
    below 256 (header values are str decoded as Latin-1, one character per
    byte): 9 to 13, 32, 133 (NEL) and 160 (NBSP). *)
Definition is_space (c : ascii) : bool :=
  let n := nat_of_ascii c in
  (n =? 32)%nat || ((9 <=? n)%nat && (n <=? 13)%nat) || (n =? 133)%nat || (n =? 160)%nat.

Fixpoint lstrip_spaces (l : list ascii) : list ascii :=
  match l with
  | c :: r => if is_space c then lstrip_spaces r else l
  | [] => []
  end.

Definition strip_spaces (l : list ascii) : list ascii :=
  rev (lstrip_spaces (rev (lstrip_spaces l))).

(** Digits with single underscores between them, as [int()] accepts. *)
Fixpoint parse_digits (l : list ascii) (acc : Z) (seen prev_us : bool)
  : option Z :=
  match l with
  | [] => if seen && negb prev_us then Some acc else None
  | c :: r =>
      if is_digit c then parse_digits r (acc * 10 + digit_val c)%Z true false
      else if Ascii.eqb c "_"%char then
        if seen && negb prev_us then parse_digits r acc seen true else None
      else None
  end.

(** [int(x)] for [x] a str or [None] (a missing header); [None] raises
    [TypeError], a non-numeral [ValueError], and so does a numeral of more
    than 4300 digits (the default [sys.set_int_max_str_digits] limit). *)
Definition py_int (x : option string) : option Z :=
  match x with
  | None => None
  | Some s =>
      let digits (l : list ascii) :=
        if (length (filter is_digit l) <=? 4300)%nat then parse_digits l 0 false false
        else None in
      match strip_spaces (list_ascii_of_string s) with
      | c :: r =>
          if Ascii.eqb c "-"%char then option_map Z.opp (digits r)
          else if Ascii.eqb c "+"%char then digits r
          else digits (c :: r)
      | [] => None
      end
  end.

Fixpoint dec_aux (fuel : nat) (n : Z) (acc : string) : string :=
  match fuel with
  | O => acc
  | S f =>
      let acc' := String (ascii_of_nat (48 + Z.to_nat (n mod 10)%Z)) acc in
      if Z.eqb (n / 10)%Z 0 then acc' else dec_aux f (n / 10)%Z acc'
  end.

(** [str(z)] for an int. *)
Definition string_of_Z (z : Z) : string :=
  let digits (n : Z) := dec_aux (S (Pos.to_nat (Pos.size (Z.to_pos n)))) n "" in
  if Z.ltb z 0 then "-" ++ digits (- z)%Z else digits z.

(** [repr(s)] for a str of code points below 256: single quotes unless
    the text has a single quote and no double quote; backslash and the
    quote are escaped, and so are the characters [str.isprintable] rejects
    (0 to 31, 127 to 160 and 173), as [\n], [\r], [\t] or [\xhh]. *)
Definition hex_digit (n : nat) : ascii :=
  if (n <? 10)%nat then ascii_of_nat (48 + n) else ascii_of_nat (87 + n).

Fixpoint repr_body (q : ascii) (s : string) : string :=
  match s with
  | EmptyString => EmptyString
  | String c r =>
      let n := nat_of_ascii c in
      if Ascii.eqb c "\"%char || Ascii.eqb c q then String "\"%char (String c (repr_body q r))
      else if (n =? 10)%nat then "\n" ++ repr_body q r
      else if (n =? 13)%nat then "\r" ++ repr_body q r
      else if (n =? 9)%nat then "\t" ++ repr_body q r
      else if (n <? 32)%nat || ((127 <=? n)%nat && (n <=? 160)%nat) || (n =? 173)%nat then
        String "\"%char (String "x"%char (String (hex_digit (n / 16)) (String (hex_digit (n mod 16)) (repr_body q r))))
      else String c (repr_body q r)
  end.

Fixpoint has_char (c : ascii) (s : string) : bool :=
  match s with
  | EmptyString => false
  | String d r => Ascii.eqb c d || has_char c r
  end.

Definition DQ : ascii := ascii_of_nat 34.

Definition repr_str (s : string) : string :=
  let q := if has_char "'"%char s && negb (has_char DQ s) then DQ else "'"%char in
  String q (repr_body q s ++ String q "").

Fixpoint join (sep : string) (l : list string) : string :=
  match l with
  | [] => ""
  | [x] => x
  | x :: r => x ++ sep ++ join sep r
  end.

(** The items of the dict built from the pairs [kvs], in order: a key
    keeps the position of its first pair and takes the value of its last. *)
Definition dict_items {A} (kvs : list (string * A)) : list (string * A) :=
  fold_left (fun acc kv =>
               if existsb (fun e => String.eqb (fst e) (fst kv)) acc
               then map (fun e => if String.eqb (fst e) (fst kv) then kv else e) acc
               else app acc [kv]) kvs [].

(** [repr(v)] of the Python value [json.loads] builds. *)
Fixpoint py_repr (v : json) : string :=
  match v with
  | JNull => "None"
  | JBool b => if b then "True" else "False"
  | JInt z => string_of_Z z
  | JFloat r => r
  | JStr s => repr_str s
  | JArr xs => "[" ++ join ", " (map py_repr xs) ++ "]"
  | JObj kvs =>
      "{" ++ join ", " (map (fun kv => repr_str (fst kv) ++ ": " ++ snd kv)
                            (dict_items (map (fun kv => (fst kv, py_repr (snd kv))) kvs))) ++ "}"
  end.

(** [str(v)]: like [repr] except that a str is itself. *)
Definition py_str (v : json) : string :=
  match v with
  | JStr s => s
  | _ => py_repr v
  end.

Definition lower (c : ascii) : ascii :=
  let n := nat_of_ascii c in
  if (65 <=? n)%nat && (n <=? 90)%nat then ascii_of_nat (n + 32) else c.

Definition lower_str (s : string) : string :=
  string_of_list_ascii (map lower (list_ascii_of_string s)).

(** [self.headers[name]]: the first header with that name, compared
    without case, or [None]. *)
Definition header_get (hs : list (string * string)) (name : string) : option string :=
  option_map snd (find (fun h => String.eqb (lower_str (fst h)) (lower_str name)) hs).

Fixpoint take_str (n : nat) (s : string) : string :=
  match n, s with
  | O, _ => EmptyString
  | S _, EmptyString => EmptyString
  | S k, String c r => String c (take_str k r)
  end.

(** The largest index, [sys.maxsize] on a 64-bit build. *)
Definition ssize_max : Z := (2 ^ 63 - 1)%Z.

(** [self.rfile.read(n)] on the handler's [rfile], a [BufferedReader]
    over the socket: [-1] reads the stream to its end; any other negative
    [n] raises [ValueError]; an [n] past [sys.maxsize] raises
    [OverflowError]; otherwise a buffer of [n] bytes is allocated
    ([MemoryError] when [alloc] refuses) and at most [n] bytes are read. *)
Definition rfile_read (alloc : Z -> bool) (stream : string) (n : Z) : option string :=
  if Z.eqb n (-1) then
    if alloc (Z.of_nat (String.length stream)) then Some stream else None
  else if Z.ltb n 0 then None
  else if Z.ltb ssize_max n then None
  else if alloc n then Some (take_str (Z.to_nat n) stream)
  else None.

Fixpoint lstrip_slash (s : string) : string :=
  match s with
  | String c r => if Ascii.eqb c "/"%char then lstrip_slash r else s
  | EmptyString => EmptyString
  end.

Definition starts_with_slash (s : string) : bool :=
  match s with String c _ => Ascii.eqb c "/"%char | _ => false end.

Definition endswith (s suf : string) : bool :=
  let n := String.length s in
  let m := String.length suf in
  (m <=? n)%nat && String.eqb (substring (n - m) m s) suf.

(** [os.path.join(a, b)] (posixpath). *)
Definition os_path_join (a b : string) : string :=
  if starts_with_slash b then b
  else if String.eqb a "" || endswith a "/" then a ++ b
  else a ++ "/" ++ b.

(* ------------------------------------------------------------------ *)
(** ** Environment, requests and responses *)

Record Env : Type := mkEnv {
  cwd : string;                                   (* os.getcwd() *)
  date_time_string : string;                      (* the Date header *)
  version_string : string;                        (* the Server header *)
  decode_utf8 : string -> option string;          (* bytes.decode('utf-8') *)
  json_loads : string -> option json;             (* json.loads *)
  run_process : list string -> FS -> option (Z * FS);
    (* subprocess.run(cmd): the exit code and the file system the child
       leaves behind, or None when spawning raises *)
  locale_encode : string -> option string;
  locale_decode : string -> option string;
    (* the codec of text-mode files (the locale's preferred encoding,
       strict errors); None where encoding or decoding raises *)
  may_search : list string -> bool;
  may_read : list string -> bool;
  may_write : list string -> bool;
  may_follow : list string -> bool;
    (* the permission checks of the server's user: search permission on a
       directory, read permission on a file, the permission open(p, 'w')
       needs on the file (or, when it does not exist, on its directory),
       and the kernel's leave to follow the symbolic link at a path (the
       protected-symlinks rule of sticky world-writable directories) *)
  can_alloc : Z -> bool
    (* whether a bytes object of n bytes can be allocated (MemoryError
       otherwise) *)
}.

(** [os.fsencode] of a str: the file system encoding of Python on Linux
    (UTF-8, in a UTF-8 locale, in the C locale and in UTF-8 mode), here on
    code points below 256. *)
Definition fsencode (s : string) : string :=
  string_of_list_ascii
    (flat_map (fun c => let n := nat_of_ascii c in
                        if (n <? 128)%nat then [c]
                        else [ascii_of_nat (192 + n / 64); ascii_of_nat (128 + n mod 64)])
              (list_ascii_of_string s)).

Definition NUL : ascii := ascii_of_nat 0.

(** The file a path names for the handler's [stat] and [open] calls: a
    path with an embedded NUL is refused ([ValueError]); otherwise the
    encoded path is resolved with the server's permissions, following a
    final symbolic link. *)
Definition os_path (env : Env) (m : FS) (p : string) : option (list string) :=
  if has_char NUL p then None
  else resolve_path (may_search env) (may_follow env) m (fsencode p).

(** [os.path.exists(p) and os.path.isfile(p)]: both are [stat] calls,
    which need no permission on the file itself; any error gives
    [False]. *)
Definition exists_file (env : Env) (m : FS) (p : string) : bool :=
  match os_path env m p with
  | Some q => match m !! q with Some (File _) => true | _ => false end
  | None => false
  end.

(** [open(p, 'w')]: the path is resolved as for [stat] (a final symbolic
    link is followed, and its target created when missing); the file must
    not be a directory and must be writable; it is created or truncated. *)
Definition open_w (env : Env) (p : string) : PyM (list string) := fun st =>
  match os_path env (fs st) p with
  | Some q =>
      if is_dir (fs st) q then (None, st)
      else if may_write env q then (Some q, mkSt (<[q := File ""]> (fs st)) (calls st))
      else (None, st)
  | None => (None, st)
  end.

(** [f.write(s)] on a file opened by [open_w]: a non-str argument raises
    [TypeError], a str the file's codec cannot encode raises
    [UnicodeEncodeError]; the file keeps what it had (empty). *)
Definition write_text (env : Env) (q : list string) (v : json) : PyM unit := fun st =>
  match v with
  | JStr s =>
      match locale_encode env s with
      | Some b => (Some tt, mkSt (<[q := File b]> (fs st)) (calls st))
      | None => (None, st)
      end
  | _ => (None, st)
  end.

(** The bytes of [open(p, 'rb').read()], or [None] where it raises. *)
Definition file_bytes (env : Env) (m : FS) (p : string) : option string :=
  match os_path env m p with
  | Some q => match m !! q with
              | Some (File c) => if may_read env q then Some c else None
              | _ => None
              end
  | None => None
  end.

(** The text of [open(p, 'r').read()]: the bytes decoded with the file
    codec, then universal newlines. *)
Definition file_text (env : Env) (m : FS) (p : string) : option string :=
  match file_bytes env m p with
  | Some c => option_map universal_newlines (locale_decode env c)
  | None => None
  end.

Definition read_bytes (env : Env) (p : string) : PyM string := fun st =>
  (file_bytes env (fs st) p, st).

Definition read_text (env : Env) (p : string) : PyM string := fun st =>
  (file_text env (fs st) p, st).

Inductive method : Type := GET | POST | OPTIONS.

Record request : Type := mkReq {
  command : method;
  path : string;                                  (* self.path, raw *)
  headers : list (string * string);
  rfile : string                                  (* bytes until EOF *)
}.

Inductive body : Type :=
| NoBody
| JsonBody (j : json)        (* json.dumps(j).encode() *)
| RawBody (b : string).

Record response : Type := mkResp {
  status : Z;
  resp_headers : list (string * string);
  resp_body : body
}.

(** [send_response(code)] always adds [Server] and [Date]. *)
Definition send_response_headers (env : Env) : list (string * string) :=
  [("Server", version_string env); ("Date", date_time_string env)].

(** [_set_headers(content_type)] *)
Definition set_headers (env : Env) (content_type : string) : list (string * string) :=
  send_response_headers env ++
  [("Content-type", content_type);
   ("Access-Control-Allow-Origin", "*");
   ("Access-Control-Allow-Methods", "GET, POST, OPTIONS");
   ("Access-Control-Allow-Headers", "Content-Type")].

(** [subprocess.run(cmd)]: the spawned command is logged. *)
Definition subprocess_run (env : Env) (cmd : list string) : PyM Z := fun st =>
  match run_process env cmd (fs st) with
  | Some (code, m') => (Some code, mkSt m' (calls st ++ [cmd]))
  | None => (None, st)
  end.

(** [data.get] exists only on a dict; anything else raises
    [AttributeError]. *)
Definition as_dict (v : json) : PyM (list (string * json)) :=
  match v with JObj kvs => ret kvs | _ => raise end.

(* ------------------------------------------------------------------ *)
(** ** The handler methods *)

Definition do_OPTIONS (env : Env) : PyM response :=
  ret (mkResp 200 (set_headers env "application/json") NoBody).

Definition do_GET (env : Env) (req : request) : PyM response :=
  if String.eqb (path req) "/api/status" then
    ret (mkResp 200 (set_headers env "application/json")
           (JsonBody (JObj [("status", JStr "running")])))
  else
    let file_path := os_path_join (cwd env) (lstrip_slash (path req)) in
    let* m := get_fs in
    if exists_file env m file_path then
      let* contents := read_bytes env file_path in
      ret (mkResp 200
             (set_headers env (if endswith file_path ".html" then "text/html" else "text/plain"))
             (RawBody contents))
    else ret (mkResp 404 (send_response_headers env) NoBody).

(** The two branches of [do_POST] are written out as in the source. *)
Definition do_POST (env : Env) (req : request) : PyM response :=
  if String.eqb (path req) "/api/encrypt" then
    let* content_length := of_option (py_int (header_get (headers req) "Content-Length")) in
    let* post_data := of_option (rfile_read (can_alloc env) (rfile req) content_length) in
    let* text := of_option (decode_utf8 env post_data) in
    let* data := of_option (json_loads env text) in
    let* f := open_w env "/tmp/input.txt" in
    let* kvs := as_dict data in
    let* _ := write_text env f (dict_get kvs "text" (JStr "")) in
    let cmd := ["java"; "-cp"; "../bin"; "WebAppLauncher";
                "/tmp/input.txt"; "/tmp/output.txt";
                py_str (dict_get kvs "key" (JInt 3)); "1"] in
    let* _ := subprocess_run env cmd in
    let* result := read_text env "/tmp/output.txt" in
    ret (mkResp 200 (set_headers env "application/json")
           (JsonBody (JObj [("result", JStr result)])))
  else if String.eqb (path req) "/api/decrypt" then
    let* content_length := of_option (py_int (header_get (headers req) "Content-Length")) in
    let* post_data := of_option (rfile_read (can_alloc env) (rfile req) content_length) in
    let* text := of_option (decode_utf8 env post_data) in
    let* data := of_option (json_loads env text) in
    let* f := open_w env "/tmp/input.txt" in
    let* kvs := as_dict data in
    let* _ := write_text env f (dict_get kvs "text" (JStr "")) in
    let cmd := ["java"; "-cp"; "../bin"; "WebAppLauncher";
                "/tmp/input.txt"; "/tmp/output.txt";
                py_str (dict_get kvs "key" (JInt 3)); "2"] in
    let* _ := subprocess_run env cmd in
    let* result := read_text env "/tmp/output.txt" in
    ret (mkResp 200 (set_headers env "application/json")
           (JsonBody (JObj [("result", JStr result)])))
  else ret (mkResp 404 (send_response_headers env) NoBody).

(** Dispatch on the request method ([do_<METHOD>]), for a request the
    base class [BaseHTTPRequestHandler] has parsed and found a method for.
    The requests it answers itself before any method of the handler runs
    (400, 414, 431 and 505 for malformed requests, 501 for a method
    without [do_<METHOD>]) are outside the handler and not modelled. *)
Definition handle (env : Env) (req : request) : PyM response :=
  match command req with
  | GET => do_GET env req
  | POST => do_POST env req
  | OPTIONS => do_OPTIONS env
  end.

(* ------------------------------------------------------------------ *)
(** ** A concrete environment for the examples

    [json_loads_basic] reads the JSON used in the examples as [json.loads]
    does: objects, arrays, strings with the short escapes, integers,
    [true], [false] and [null].  It rejects floats and [\u] escapes, which
    the examples do not use.  [ascii_decode] accepts the ASCII bodies of
    the examples unchanged. *)

Definition is_json_ws (c : ascii) : bool :=
  let n := nat_of_ascii c in (n =? 32)%nat || (n =? 9)%nat || (n =? 10)%nat || (n =? 13)%nat.

Fixpoint skip_ws (s : string) : string :=
  match s with
  | String c r => if is_json_ws c then skip_ws r else s
  | EmptyString => EmptyString
  end.

Definition unescape (c : ascii) : option ascii :=
  let n := nat_of_ascii c in
  if (n =? 34)%nat || (n =? 92)%nat || (n =? 47)%nat then Some c
  else if Ascii.eqb c "b"%char then Some (ascii_of_nat 8)
  else if Ascii.eqb c "f"%char then Some (ascii_of_nat 12)
  else if Ascii.eqb c "n"%char then Some LF
  else if Ascii.eqb c "r"%char then Some CR
  else if Ascii.eqb c "t"%char then Some (ascii_of_nat 9)
  else None.

(** The body of a string literal up to its closing quote. *)
Fixpoint scan_string (s : string) : option (string * string) :=
  match s with
  | EmptyString => None
  | String c r =>
      if Ascii.eqb c DQ then Some (EmptyString, r)
      else if (nat_of_ascii c <? 32)%nat then None
      else if (nat_of_ascii c =? 92)%nat then
        match r with
        | String e r' =>
            match unescape e, scan_string r' with
            | Some u, Some (x, rest) => Some (String u x, rest)
            | _, _ => None
            end
        | EmptyString => None
        end
      else match scan_string r with
           | Some (x, rest) => Some (String c x, rest)
           | None => None
           end
  end.

Fixpoint strip_prefix (p s : string) : option string :=
  match p, s with
  | EmptyString, _ => Some s
  | String a p', String b s' => if Ascii.eqb a b then strip_prefix p' s' else None
  | _, _ => None
  end.

Fixpoint scan_digits (s : string) (acc : Z) : Z * string :=
  match s with
  | String c r => if is_digit c then scan_digits r (acc * 10 + digit_val c)%Z else (acc, s)
  | EmptyString => (acc, s)
  end.

Definition no_fraction (s : string) : bool :=
  match s with
  | String c _ => negb (Ascii.eqb c "."%char || Ascii.eqb c "e"%char || Ascii.eqb c "E"%char)
  | EmptyString => true
  end.

(** An optional minus, then 0 or a numeral without a leading zero. *)
Definition parse_nat_part (s : string) : option (Z * string) :=
  match s with
  | String c r =>
      if Ascii.eqb c "0"%char then Some (0%Z, r)
      else if is_digit c then Some (scan_digits r (digit_val c))
      else None
  | EmptyString => None
  end.

Definition parse_number (s : string) : option (json * string) :=
  let '(neg, s') := match s with
                    | String c r => if Ascii.eqb c "-"%char then (true, r) else (false, s)
                    | EmptyString => (false, s)
                    end in
  match parse_nat_part s' with
  | Some (z, r) => if no_fraction r then Some (JInt (if neg then - z else z)%Z, r) else None
  | None => None
  end.

Fixpoint parse_value (fuel : nat) (s : string) {struct fuel} : option (json * string) :=
  match fuel with
  | O => None
  | S f =>
      match skip_ws s with
      | String c r =>
          if Ascii.eqb c "{"%char then
            match skip_ws r with
            | String d r' => if Ascii.eqb d "}"%char then Some (JObj [], r')
                             else parse_members f (skip_ws r) []
            | EmptyString => None
            end
          else if Ascii.eqb c "["%char then
            match skip_ws r with
            | String d r' => if Ascii.eqb d "]"%char then Some (JArr [], r')
                             else parse_elems f r []
            | EmptyString => None
            end
          else if Ascii.eqb c DQ then
            match scan_string r with Some (x, r') => Some (JStr x, r') | None => None end
          else match strip_prefix "true" (String c r) with
          | Some r' => Some (JBool true, r')
          | None => match strip_prefix "false" (String c r) with
            | Some r' => Some (JBool false, r')
            | None => match strip_prefix "null" (String c r) with
              | Some r' => Some (JNull, r')
              | None => parse_number (String c r)
              end end end
      | EmptyString => None
      end
  end
with parse_members (fuel : nat) (s : string) (acc : list (string * json)) {struct fuel}
  : option (json * string) :=
  match fuel with
  | O => None
  | S f =>
      match s with
      | String q r =>
          if Ascii.eqb q DQ then
            match scan_string r with
            | Some (k, r1) =>
                match skip_ws r1 with
                | String colon r2 =>
                    if Ascii.eqb colon ":"%char then
                      match parse_value f r2 with
                      | Some (v, r3) =>
                          match skip_ws r3 with
                          | String d r4 =>
                              if Ascii.eqb d ","%char then parse_members f (skip_ws r4) (acc ++ [(k, v)])
                              else if Ascii.eqb d "}"%char then Some (JObj (acc ++ [(k, v)]), r4)
                              else None
                          | EmptyString => None
                          end
                      | None => None
                      end
                    else None
                | EmptyString => None
                end
            | None => None
            end
          else None
      | EmptyString => None
      end
  end
with parse_elems (fuel : nat) (s : string) (acc : list json) {struct fuel}
  : option (json * string) :=
  match fuel with
  | O => None
  | S f =>
      match parse_value f s with
      | Some (v, r) =>
          match skip_ws r with
          | String d r' =>
              if Ascii.eqb d ","%char then parse_elems f r' (acc ++ [v])
              else if Ascii.eqb d "]"%char then Some (JArr (acc ++ [v]), r')
              else None
          | EmptyString => None
          end
      | None => None
      end
  end.

Definition json_loads_basic (s : string) : option json :=
  match parse_value (S (String.length s)) s with
  | Some (v, r) => match skip_ws r with EmptyString => Some v | _ => None end
  | None => None
  end.

Definition ascii_decode (s : string) : option string :=
  if forallb (fun c => (nat_of_ascii c <? 128)%nat) (list_ascii_of_string s) then Some s
  else None.

(** Reading and writing a file by path, for the model workers below,
    which run with every permission. *)
Definition fs_read (m : FS) (p : string) : option string :=
  match resolve_path (fun _ => true) (fun _ => true) m p with
  | Some q => match m !! q with Some (File c) => Some c | _ => None end
  | None => None
  end.

Definition fs_write (m : FS) (p : string) (c : string) : option FS :=
  match resolve_path (fun _ => true) (fun _ => true) m p with
  | Some q => if is_dir m q then None else Some (<[q := File c]> m)
  | None => None
  end.

(** A worker following the external contract
    [<exe> <inputPath> <outputPath> <key> <mode:1|2>]: it applies [enc key]
    (mode 1) or [dec key] (otherwise) to the input file, writes the output
    file and exits 0; it exits 1 without writing when a file is
    inaccessible. *)
Definition transform_worker (enc dec : string -> string -> string)
    (cmd : list string) (m : FS) : option (Z * FS) :=
  match cmd with
  | [_; _; _; _; inp; out; key; mode] =>
      match fs_read m inp with
      | Some c =>
          let r := if String.eqb mode "1" then enc key c else dec key c in
          match fs_write m out r with
          | Some m' => Some (0%Z, m')
          | None => Some (1%Z, m)
          end
      | None => Some (1%Z, m)
      end
  | _ => Some (1%Z, m)
  end.

(** A worker that copies its input, and exits 1 without writing anything
    when the key is not a numeral. *)
Definition strict_copy_worker (cmd : list string) (m : FS) : option (Z * FS) :=
  match cmd with
  | [_; _; _; _; _; _; key; _] =>
      match py_int (Some key) with
      | Some _ => transform_worker (fun _ c => c) (fun _ c => c) cmd m
      | None => Some (1%Z, m)
      end
  | _ => Some (1%Z, m)
  end.

(** The example machine: the server runs in [/srv/app] with every
    permission, its text files and bodies are ASCII (the ASCII codec,
    which UTF-8 agrees with on them), and buffers up to 16 GiB can be
    allocated. *)
Definition demo_env (run : list string -> FS -> option (Z * FS)) : Env :=
  mkEnv "/srv/app" "Thu, 15 Oct 2026 12:00:00 GMT" "BaseHTTP/0.6 Python/3.12.3"
        ascii_decode json_loads_basic run ascii_decode ascii_decode
        (fun _ => true) (fun _ => true) (fun _ => true) (fun _ => true)
        (fun n => Z.leb n 17179869184).

Definition demo_fs : FS :=
  list_to_map [(["srv"], Dir); (["srv"; "app"], Dir);
               (["srv"; "app"; "index.html"], File "<h1>Encryptor</h1>");
               (["tmp"], Dir); (["etc"], Dir);
               (["etc"; "passwd"], File "root:x:0:0:root:/root:/bin/bash")].

Definition demo_st : St := mkSt demo_fs [].

(** A JSON string literal for a text without quotes or backslashes. *)
Definition jq (s : string) : string := String DQ (s ++ String DQ "").

Definition post_req (p : string) (payload : string) : request :=
  mkReq POST p
        [("Host", "localhost:8080"); ("Content-Type", "application/json");
         ("Content-Length", string_of_Z (Z.of_nat (String.length payload)))]
        payload.

Definition get_req (p : string) : request :=
  mkReq GET p [("Host", "localhost:8080")] "".

(* ------------------------------------------------------------------ *)
(** ** Pieces of [do_POST], named for the proofs *)

(** Lines 37-39: the parsed JSON body, or [None] where they raise. *)
Definition parsed_body (env : Env) (hs : list (string * string)) (rf : string)
  : option json :=
  match py_int (header_get hs "Content-Length") with
  | Some n =>
      match rfile_read (can_alloc env) rf n with
      | Some data =>
          match decode_utf8 env data with
          | Some text => json_loads env text
          | None => None
          end
      | None => None
      end
  | None => None
  end.

Definition worker_argv (key mode : string) : list string :=
  ["java"; "-cp"; "../bin"; "WebAppLauncher";
   "/tmp/input.txt"; "/tmp/output.txt"; key; mode].

Definition result_resp (env : Env) (result : string) : response :=
  mkResp 200 (set_headers env "application/json") (JsonBody (JObj [("result", JStr result)])).

(** What a transform request does once the worker is spawned. *)
Definition after_worker (env : Env) (key mode : string) : PyM response :=
  let* _ := subprocess_run env (worker_argv key mode) in
  let* result := read_text env "/tmp/output.txt" in
  ret (result_resp env result).

(** What a transform request does once its body is parsed. *)
Definition post_tail (env : Env) (mode : string) (data : json) : PyM response :=
  let* f := open_w env "/tmp/input.txt" in
  let* kvs := as_dict data in
  let* _ := write_text env f (dict_get kvs "text" (JStr "")) in
  after_worker env (py_str (dict_get kvs "key" (JInt 3))) mode.

(** The transform computation as the spec describes it: one procedure,
    parameterised by the mode code given to the worker. *)
Definition transform_branch (env : Env) (mode : string)
    (hs : list (string * string)) (rf : string) : PyM response := fun st =>
  match parsed_body env hs rf with
  | Some data => post_tail env mode data st
  | None => (None, st)
  end.

Definition mode_of (p : string) : string :=
  if String.eqb p "/api/encrypt" then "1" else "2".

Definition is_transform_path (p : string) : bool :=
  String.eqb p "/api/encrypt" || String.eqb p "/api/decrypt".



Definition INPUT : list string := ["tmp"; "input.txt"].

(** [/tmp] is a directory the server can reach: the root and [/tmp] are
    searchable. *)
Definition tmp_ok (env : Env) (m : FS) : bool :=
  may_search env [] && is_dir m ["tmp"] && may_search env ["tmp"].

(** A path that holds a regular file or nothing: no directory and no
    symbolic link. *)
Definition is_plain (m : FS) (p : list string) : bool :=
  match m !! p with Some Dir | Some (Link _) => false | _ => true end.


(** The example requests. *)
Definition demo_E : Env := demo_env strict_copy_worker.

Definition body_hello : string :=
  "{" ++ jq "text" ++ ":" ++ jq "HELLO" ++ "," ++ jq "key" ++ ":3}".










(* ------------------------------------------------------------------ *)
(** ** General lemmas *)

(** One step of [walk]. *)
Lemma walk_nil links srch follow m fl cur :
  walk links srch follow m fl cur [] = Some cur.
Proof. destruct links; reflexivity. Qed.

Lemma walk_empty links srch follow m fl cur rest :
  is_dir m cur = true ->
  walk links srch follow m fl cur ("" :: rest) = walk links srch follow m fl cur rest.
Proof. intros H. destruct links; cbn; rewrite H; reflexivity. Qed.

Lemma walk_plain links srch follow m fl cur c rest :
  String.eqb c "" = false -> String.eqb c "." = false -> String.eqb c ".." = false ->
  is_dir m cur = true -> srch cur = true ->
  (forall t, m !! (app cur [c]) <> Some (Link t)) ->
  walk links srch follow m fl cur (c :: rest) = walk links srch follow m fl (app cur [c]) rest.
Proof.
  intros H1 H2 H3 Hd Hs Hl.
  destruct links; cbn; rewrite H1, Hd, Hs; cbn; rewrite H2, H3;
    destruct (m !! (app cur [c])) as [[| |t]|] eqn:E; try reflexivity;
    exfalso; exact (Hl t eq_refl).
Qed.

Lemma tmp_ok_parts (env : Env) (m : FS) :
  tmp_ok env m = true ->
  may_search env [] = true /\ m !! ["tmp"] = Some Dir /\ may_search env ["tmp"] = true.
Proof.
  unfold tmp_ok, is_dir. intros H.
  apply andb_true_iff in H as [H H3]. apply andb_true_iff in H as [H1 H2].
  destruct (m !! ["tmp"]) as [[]|]; try discriminate. auto.
Qed.

Lemma walk_tmp links srch follow m fl name :
  String.eqb name "" = false -> String.eqb name "." = false -> String.eqb name ".." = false ->
  srch [] = true -> m !! ["tmp"] = Some Dir -> srch ["tmp"] = true ->
  (forall t, m !! ["tmp"; name] <> Some (Link t)) ->
  walk links srch follow m fl [] [""; "tmp"; name] = Some ["tmp"; name].
Proof.
  intros Hn1 Hn2 Hn3 H1 H2 H3 Hl.
  rewrite walk_empty by reflexivity.
  rewrite walk_plain by (try reflexivity; try assumption; cbn; intros t; rewrite H2; discriminate).
  cbn [app]. rewrite walk_plain by (try assumption; unfold is_dir; rewrite H2; reflexivity).
  apply walk_nil.
Qed.

(** The scratch paths resolve to themselves when [/tmp] is a reachable
    directory and the entry is no symbolic link. *)
Lemma os_path_input (env : Env) (m : FS) :
  tmp_ok env m = true -> (forall t, m !! INPUT <> Some (Link t)) ->
  os_path env m "/tmp/input.txt" = Some INPUT.
Proof.
  intros H Hl. apply tmp_ok_parts in H as (H1 & H2 & H3).
  unfold os_path, resolve_path.
  change (has_char NUL "/tmp/input.txt") with false.
  change (fsencode "/tmp/input.txt") with "/tmp/input.txt".
  change (String.length "/tmp/input.txt" <? PATH_MAX)%nat with true.
  change (split_slash "/tmp/input.txt") with [""; "tmp"; "input.txt"]. cbn iota.
  apply walk_tmp; auto.
Qed.




(** [is_plain] rules out a directory and a symbolic link. *)
Lemma is_plain_no_link (m : FS) p : is_plain m p = true -> forall t, m !! p <> Some (Link t).
Proof. unfold is_plain. intros H t E. rewrite E in H. discriminate. Qed.

Lemma is_plain_not_dir (m : FS) p : p <> [] -> is_plain m p = true -> is_dir m p = false.
Proof. intros Hp. unfold is_plain, is_dir. destruct p; [congruence|]. destruct (m !! _) as [[]|]; congruence. Qed.

Lemma open_w_input (env : Env) (st : St) :
  tmp_ok env (fs st) = true -> is_plain (fs st) INPUT = true ->
  open_w env "/tmp/input.txt" st =
  if may_write env INPUT
  then (Some INPUT, mkSt (<[INPUT := File ""]> (fs st)) (calls st))
  else (None, st).
Proof.
  intros H Hp. unfold open_w.
  rewrite os_path_input by (try exact H; apply is_plain_no_link; exact Hp).
  rewrite is_plain_not_dir by (discriminate || exact Hp). reflexivity.
Qed.

Lemma do_POST_encrypt_unfold env cm hs rf st :
  do_POST env (mkReq cm "/api/encrypt" hs rf) st = transform_branch env "1" hs rf st.
Proof.
  unfold do_POST, transform_branch, parsed_body, post_tail, after_worker.
  simpl. unfold bind, of_option, ret, raise.
  destruct (py_int _); [|reflexivity].
  destruct (rfile_read _ _ _); [|reflexivity].
  destruct (decode_utf8 env _); [|reflexivity].
  destruct (json_loads env _); reflexivity.
Qed.

Lemma do_POST_decrypt_unfold env cm hs rf st :
  do_POST env (mkReq cm "/api/decrypt" hs rf) st = transform_branch env "2" hs rf st.
Proof.
  unfold do_POST, transform_branch, parsed_body, post_tail, after_worker.
  simpl. unfold bind, of_option, ret, raise.
  destruct (py_int _); [|reflexivity].
  destruct (rfile_read _ _ _); [|reflexivity].
  destruct (decode_utf8 env _); [|reflexivity].
  destruct (json_loads env _); reflexivity.
Qed.

Lemma after_worker_eq env key mode st :
  after_worker env key mode st =
  match run_process env (worker_argv key mode) (fs st) with
  | Some (_, m') =>
      (option_map (result_resp env) (file_text env m' "/tmp/output.txt"),
       mkSt m' (calls st ++ [worker_argv key mode]))
  | None => (None, st)
  end.
Proof.
  unfold after_worker, subprocess_run, read_text. cbv [bind ret].
  destruct (run_process env _ _) as [[c m']|]; [|reflexivity]. cbn [fs].
  destruct (file_text env m' _); reflexivity.
Qed.

Lemma post_tail_obj env mode kvs t b st :
  tmp_ok env (fs st) = true -> is_plain (fs st) INPUT = true -> may_write env INPUT = true ->
  dict_get kvs "text" (JStr "") = JStr t -> locale_encode env t = Some b ->
  post_tail env mode (JObj kvs) st =
  after_worker env (py_str (dict_get kvs "key" (JInt 3))) mode
               (mkSt (<[INPUT := File b]> (fs st)) (calls st)).
Proof.
  intros Htmp Hin Hw Htext Henc.
  unfold post_tail. unfold bind at 1. rewrite open_w_input, Hw by assumption. cbn iota beta.
  unfold bind at 1. cbn [as_dict ret]. unfold bind at 1.
  unfold write_text. rewrite Htext, Henc. simpl.
  rewrite insert_insert_eq. reflexivity.
Qed.

Lemma handle_transform env req st kvs t b :
  command req = POST -> is_transform_path (path req) = true ->
  parsed_body env (headers req) (rfile req) = Some (JObj kvs) ->
  dict_get kvs "text" (JStr "") = JStr t -> locale_encode env t = Some b ->
  tmp_ok env (fs st) = true -> is_plain (fs st) INPUT = true -> may_write env INPUT = true ->
  handle env req st =
  after_worker env (py_str (dict_get kvs "key" (JInt 3))) (mode_of (path req))
               (mkSt (<[INPUT := File b]> (fs st)) (calls st)).
Proof.
  destruct req as [cm p hs rf]; simpl. intros -> Hp Hbody Htext Henc Htmp Hin Hw.
  unfold handle; simpl. unfold is_transform_path, mode_of in *.
  destruct (String.eqb_spec p "/api/encrypt") as [->|Hne].
  - rewrite do_POST_encrypt_unfold. unfold transform_branch. rewrite Hbody.
    apply (post_tail_obj env _ kvs t b); assumption.
  - destruct (String.eqb_spec p "/api/decrypt") as [->|]; [|discriminate].
    rewrite do_POST_decrypt_unfold. unfold transform_branch. rewrite Hbody.
    apply (post_tail_obj env _ kvs t b); assumption.
Qed.


Lemma do_GET_eq env req st :
  do_GET env req st =
  (if String.eqb (path req) "/api/status" then
     Some (mkResp 200 (set_headers env "application/json")
                  (JsonBody (JObj [("status", JStr "running")])))
   else
     let fp := os_path_join (cwd env) (lstrip_slash (path req)) in
     match os_path env (fs st) fp with
     | Some q =>
         match fs st !! q with
         | Some (File c) =>
             if may_read env q
             then Some (mkResp 200 (set_headers env (if endswith fp ".html" then "text/html" else "text/plain"))
                               (RawBody c))
             else None
         | _ => Some (mkResp 404 (send_response_headers env) NoBody)
         end
     | None => Some (mkResp 404 (send_response_headers env) NoBody)
     end, st).
Proof.
  unfold do_GET. destruct (String.eqb _ _); [reflexivity|].
  cbv [bind get_fs ret]. unfold exists_file, read_bytes, file_bytes.
  destruct (os_path env (fs st) _) as [q|] eqn:E; [|reflexivity].
  destruct (fs st !! q) as [[c| |]|] eqn:F; try reflexivity.
  cbv beta. rewrite E, F. destruct (may_read env q); reflexivity.
Qed.

Lemma do_GET_state env req st : snd (do_GET env req st) = st.
Proof. rewrite do_GET_eq. reflexivity. Qed.

Lemma do_GET_response env req st :
  match fst (do_GET env req st) with
  | Some r => (status r = 200%Z /\ exists ct, resp_headers r = set_headers env ct)
              \/ (status r = 404%Z /\ resp_headers r = send_response_headers env)
  | None => True
  end.
Proof.
  rewrite do_GET_eq. cbn [fst]. destruct (String.eqb _ _); [left; split; [reflexivity|eauto]|].
  cbn zeta. destruct (os_path _ _ _) as [q|]; [|right; split; reflexivity].
  destruct (fs st !! q) as [[c| |]|]; [|right; split; reflexivity..].
  destruct (may_read env q); [|exact I]. left; split; [reflexivity|eauto].
Qed.

Lemma open_w_calls env p st : calls (snd (open_w env p st)) = calls st.
Proof.
  unfold open_w. destruct (os_path _ _ _); [|reflexivity].
  destruct (is_dir _ _); [reflexivity|]. destruct (may_write _ _); reflexivity.
Qed.

Lemma write_text_calls env q v st : calls (snd (write_text env q v st)) = calls st.
Proof. unfold write_text. destruct v; try reflexivity. destruct (locale_encode _ _); reflexivity. Qed.

Lemma post_tail_calls env mode data st :
  calls (snd (post_tail env mode data st)) = calls st \/
  exists kvs, data = JObj kvs /\
    calls (snd (post_tail env mode data st)) =
    app (calls st) [worker_argv (py_str (dict_get kvs "key" (JInt 3))) mode].
Proof.
  unfold post_tail. cbv [bind].
  pose proof (open_w_calls env "/tmp/input.txt" st) as H1.
  destruct (open_w _ _ st) as [[f|] st1]; [|left; exact H1]. simpl in H1.
  destruct data as [| | | | | |kvs]; try (left; exact H1). cbn [as_dict ret].
  pose proof (write_text_calls env f (dict_get kvs "text" (JStr "")) st1) as H2.
  destruct (write_text _ _ _ st1) as [[[]|] st2]; simpl in H2; [|left; simpl; congruence].
  rewrite after_worker_eq.
  destruct (run_process env _ _) as [[c m']|]; simpl; [right|left; simpl; congruence].
  exists kvs. split; [reflexivity|]. rewrite H2, H1. reflexivity.
Qed.

Lemma post_tail_response env mode data st :
  match fst (post_tail env mode data st) with
  | Some r => r = result_resp env (match resp_body r with
                                   | JsonBody (JObj [(_, JStr s)]) => s
                                   | _ => "" end)
  | None => True
  end.
Proof.
  unfold post_tail. cbv [bind].
  destruct (open_w _ _ st) as [[f|] st1]; [|exact I].
  destruct (as_dict data st1) as [[kvs|] st2]; [|exact I].
  destruct (write_text _ _ _ st2) as [[[]|] st3]; [|exact I].
  rewrite after_worker_eq.
  destruct (run_process env _ _) as [[c m']|]; [|exact I]. simpl.
  destruct (file_text env m' _); reflexivity.
Qed.

Lemma do_POST_response env req st :
  match fst (do_POST env req st) with
  | Some r => (status r = 200%Z /\ exists ct, resp_headers r = set_headers env ct)
              \/ (status r = 404%Z /\ resp_headers r = send_response_headers env)
  | None => True
  end.
Proof.
  destruct req as [cm p hs rf].
  assert (Htail : forall mode data st',
    match fst (post_tail env mode data st') with
    | Some r => (status r = 200%Z /\ exists ct, resp_headers r = set_headers env ct)
                \/ (status r = 404%Z /\ resp_headers r = send_response_headers env)
    | None => True
    end).
  { intros mode data st'. pose proof (post_tail_response env mode data st') as H.
    destruct (fst (post_tail env mode data st')) as [r|]; [|exact I].
    rewrite H. left. split; [reflexivity|eauto]. }
  destruct (String.eqb_spec p "/api/encrypt") as [->|Hne1].
  - rewrite do_POST_encrypt_unfold. unfold transform_branch.
    destruct (parsed_body _ _ _); [apply Htail|exact I].
  - destruct (String.eqb_spec p "/api/decrypt") as [->|Hne2].
    + rewrite do_POST_decrypt_unfold. unfold transform_branch.
      destruct (parsed_body _ _ _); [apply Htail|exact I].
    + unfold do_POST; simpl.
      apply String.eqb_neq in Hne1, Hne2. rewrite Hne1, Hne2.
      right; split; reflexivity.
Qed.

Lemma handle_response env req st :
  match fst (handle env req st) with
  | Some r => (status r = 200%Z /\ exists ct, resp_headers r = set_headers env ct)
              \/ (status r = 404%Z /\ resp_headers r = send_response_headers env)
  | None => True
  end.
Proof.
  unfold handle. destruct (command req).
  - apply do_GET_response.
  - apply do_POST_response.
  - left. split; [reflexivity|]. eexists; reflexivity.
Qed.

Lemma dict_get_absent kvs k d :
  ~ In k (map fst kvs) -> dict_get kvs k d = d.
Proof.
  intros Hk. unfold dict_get.
  destruct (find _ (rev kvs)) as [[k' v]|] eqn:E; [|reflexivity].
  apply find_some in E as [Hin Heq]. simpl in Heq.
  apply String.eqb_eq in Heq. subst k'.
  apply in_rev in Hin. exfalso. apply Hk. apply (in_map fst) in Hin. exact Hin.
Qed.

Lemma handle_transform_branch env req st :
  command req = POST -> is_transform_path (path req) = true ->
  handle env req st = transform_branch env (mode_of (path req)) (headers req) (rfile req) st.
Proof.
  destruct req as [cm p hs rf]; simpl. intros -> Hp.
  unfold handle; simpl. unfold is_transform_path, mode_of in *.
  destruct (String.eqb_spec p "/api/encrypt") as [->|Hne].
  - apply do_POST_encrypt_unfold.
  - destruct (String.eqb_spec p "/api/decrypt") as [->|]; [|discriminate].
    apply do_POST_decrypt_unfold.
Qed.

























(* ================================================================== *)
(** * The claims *)

(** C9: [GET /api/status] answers 200 with [{"status": "running"}] and the
    standard headers, for every environment (whatever the worker does),
    and leaves the state (files and spawned processes) unchanged. *)
Theorem status_endpoint_pure (env : Env) (hs : list (string * string)) (rf : string) (st : St) :
  handle env (mkReq GET "/api/status" hs rf) st =
  (Some (mkResp 200 (set_headers env "application/json")
                (JsonBody (JObj [("status", JStr "running")]))), st).
Proof. reflexivity. Qed.

(** C10: the [/api/encrypt] and [/api/decrypt] branches of [do_POST] are
    the same computation [transform_branch], instantiated with mode code
    "1" and "2" respectively. *)
Theorem encrypt_decrypt_same_branch (env : Env) (cm : method)
    (hs : list (string * string)) (rf : string) (st : St) :
  do_POST env (mkReq cm "/api/encrypt" hs rf) st = transform_branch env "1" hs rf st /\
  do_POST env (mkReq cm "/api/decrypt" hs rf) st = transform_branch env "2" hs rf st.
Proof. split; [apply do_POST_encrypt_unfold | apply do_POST_decrypt_unfold]. Qed.

(** C6: a request either spawns no process or spawns exactly one, the
    worker with the argument list input path, output path, [str(key)]
    (the key member of the JSON body, 3 when it is absent) and mode code
    "1" for [/api/encrypt], "2" for [/api/decrypt]. *)
Theorem worker_arguments (env : Env) (req : request) (st : St) :
  (calls (snd (handle env req st)) = calls st \/
   (command req = POST /\ is_transform_path (path req) = true /\
    exists kvs, parsed_body env (headers req) (rfile req) = Some (JObj kvs) /\
      calls (snd (handle env req st)) =
      app (calls st) [["java"; "-cp"; "../bin"; "WebAppLauncher";
                       "/tmp/input.txt"; "/tmp/output.txt";
                       py_str (dict_get kvs "key" (JInt 3)); mode_of (path req)]])) /\
  mode_of "/api/encrypt" = "1" /\ mode_of "/api/decrypt" = "2" /\
  (forall kvs, ~ In "key" (map fst kvs) -> py_str (dict_get kvs "key" (JInt 3)) = "3").
Proof.
  split; [|split; [reflexivity|split; [reflexivity|]]].
  2:{ intros kvs Hk. rewrite dict_get_absent by exact Hk. reflexivity. }
  destruct req as [cm p hs rf]. unfold handle. simpl.
  destruct cm.
  - left. rewrite do_GET_state. reflexivity.
  - assert (Htb : forall mode, mode = mode_of p -> is_transform_path p = true ->
      calls (snd (transform_branch env mode hs rf st)) = calls st \/
      (POST = POST /\ is_transform_path p = true /\
       exists kvs, parsed_body env hs rf = Some (JObj kvs) /\
       calls (snd (transform_branch env mode hs rf st)) =
       app (calls st) [worker_argv (py_str (dict_get kvs "key" (JInt 3))) (mode_of p)])).
    { intros mode -> Hp. unfold transform_branch.
      destruct (parsed_body env hs rf) as [data|] eqn:Hb; [|left; reflexivity].
      destruct (post_tail_calls env (mode_of p) data st) as [H|[kvs [-> H]]];
        [left; exact H|right; split; [reflexivity|split; [exact Hp|]]].
      exists kvs. split; [reflexivity|exact H]. }
    destruct (String.eqb_spec p "/api/encrypt") as [->|Hne1].
    + rewrite do_POST_encrypt_unfold. apply Htb; reflexivity.
    + destruct (String.eqb_spec p "/api/decrypt") as [->|Hne2].
      * rewrite do_POST_decrypt_unfold. apply Htb; reflexivity.
      * left. unfold do_POST; simpl.
        apply String.eqb_neq in Hne1, Hne2. rewrite Hne1, Hne2. reflexivity.
  - left. reflexivity.
Qed.

(** C8 (counterexample): a GET of a missing file is answered 404 with only
    the [Server] and [Date] headers that [send_response] adds: no
    [Content-Type] and no [Access-Control-Allow-*] header. *)
Lemma not_found_lacks_cors_headers :
  fst (handle (demo_env strict_copy_worker) (get_req "/missing.html") demo_st) =
  Some (mkResp 404 [("Server", "BaseHTTP/0.6 Python/3.12.3");
                    ("Date", "Thu, 15 Oct 2026 12:00:00 GMT")] NoBody).
Proof. vm_compute. reflexivity. Qed.

(** C8 (amended): every response is either a 200 whose headers are those
    of [_set_headers] (Content-type and the three CORS headers, Origin
    "*"), or a 404 carrying only [Server] and [Date]. *)
Theorem response_headers_by_status (env : Env) (req : request) (st : St) :
  match fst (handle env req st) with
  | Some r => (status r = 200%Z /\ exists ct, resp_headers r = set_headers env ct)
              \/ (status r = 404%Z /\ resp_headers r = send_response_headers env)
  | None => True
  end.
Proof. exact (handle_response env req st). Qed.









(** C3 (counterexample): a body that is not JSON gets no response at all
    (the exception escapes the handler), not a 400; a JSON object without
    the [text] member is processed with the empty text and answered 200. *)
Lemma malformed_json_no_400 :
  handle demo_E (post_req "/api/encrypt" "not json") demo_st = (None, demo_st) /\
  fst (handle demo_E (post_req "/api/encrypt" "{}") demo_st) = Some (result_resp demo_E "").
Proof. split; vm_compute; reflexivity. Qed.

(** C3 (amended): a transform request whose body cannot be read as JSON
    (a Content-Length that is missing, not an integer, below -1, past
    [sys.maxsize] or too large to allocate; bad UTF-8; malformed JSON)
    raises before anything is written or spawned, so no response is sent
    and the state is unchanged; required members are not checked: an
    object without [text] is processed with the empty text and reaches the
    worker. *)
Theorem malformed_body_raises (env : Env) (req : request) (st : St)
    (kvs : list (string * json)) :
  command req = POST -> is_transform_path (path req) = true ->
  (parsed_body env (headers req) (rfile req) = None -> handle env req st = (None, st)) /\
  (parsed_body env (headers req) (rfile req) = Some (JObj kvs) ->
   ~ In "text" (map fst kvs) ->
   tmp_ok env (fs st) = true -> is_plain (fs st) INPUT = true -> may_write env INPUT = true ->
   locale_encode env "" = Some "" ->
   handle env req st =
   after_worker env (py_str (dict_get kvs "key" (JInt 3))) (mode_of (path req))
                (mkSt (<[INPUT := File ""]> (fs st)) (calls st))).
Proof.
  intros Hc Hp. split.
  - intros Hb. rewrite handle_transform_branch by assumption.
    unfold transform_branch. rewrite Hb. reflexivity.
  - intros Hb Hk Htmp Hin Hw He.
    apply (handle_transform env req st kvs "" ""); try assumption.
    apply dict_get_absent. exact Hk.
Qed.

Lemma malformed_body_raises_witness :
  let bad := post_req "/api/decrypt" "{" in
  let neg := mkReq POST "/api/decrypt" [("Content-Length", "-2")] "{}" in
  let empty := post_req "/api/decrypt" "{}" in
  (command bad = POST /\ is_transform_path (path bad) = true /\
   parsed_body demo_E (headers bad) (rfile bad) = None /\
   handle demo_E bad demo_st = (None, demo_st)) /\
  (command neg = POST /\ is_transform_path (path neg) = true /\
   parsed_body demo_E (headers neg) (rfile neg) = None /\
   handle demo_E neg demo_st = (None, demo_st)) /\
  (command empty = POST /\ is_transform_path (path empty) = true /\
   parsed_body demo_E (headers empty) (rfile empty) = Some (JObj []) /\
   ~ In "text" (map fst (@nil (string * json))) /\
   tmp_ok demo_E (fs demo_st) = true /\ is_plain (fs demo_st) INPUT = true /\
   may_write demo_E INPUT = true /\ locale_encode demo_E "" = Some "" /\
   handle demo_E empty demo_st =
   after_worker demo_E (py_str (dict_get [] "key" (JInt 3))) (mode_of (path empty))
                (mkSt (<[INPUT := File ""]> (fs demo_st)) (calls demo_st))).
Proof.
  intros bad neg empty.
  split; [|split].
  - assert (Hb : parsed_body demo_E (headers bad) (rfile bad) = None) by (vm_compute; reflexivity).
    split; [reflexivity|]. split; [reflexivity|]. split; [exact Hb|].
    apply (proj1 (malformed_body_raises demo_E bad demo_st [] eq_refl eq_refl)). exact Hb.
  - assert (Hb : parsed_body demo_E (headers neg) (rfile neg) = None) by (vm_compute; reflexivity).
    split; [reflexivity|]. split; [reflexivity|]. split; [exact Hb|].
    apply (proj1 (malformed_body_raises demo_E neg demo_st [] eq_refl eq_refl)). exact Hb.
  - assert (Hb : parsed_body demo_E (headers empty) (rfile empty) = Some (JObj [])) by (vm_compute; reflexivity).
    assert (Hk : ~ In "text" (map fst (@nil (string * json)))) by (simpl; tauto).
    do 2 (split; [reflexivity|]). split; [exact Hb|]. split; [exact Hk|].
    do 4 (split; [vm_compute; reflexivity|]).
    apply (proj2 (malformed_body_raises demo_E empty demo_st [] eq_refl eq_refl)); 
      first [exact Hb | exact Hk | vm_compute; reflexivity].
Defined.







(* ================================================================== *)
(** * Further properties of the handler *)

(** X1: GET and OPTIONS requests never change the file system and never
    spawn a process: whatever the path, the state after [do_GET] or
    [do_OPTIONS] is the state before. *)
Theorem get_options_read_only (env : Env) (req : request) (st : St) :
  match command req with
  | POST => True
  | _ => snd (handle env req st) = st
  end.
Proof.
  unfold handle. destruct (command req); [apply do_GET_state|exact I|reflexivity].
Qed.

(** X2: a POST to any path other than [/api/encrypt] and [/api/decrypt]
    (a trailing slash or a query string included) answers 404 with only
    the Server and Date headers; its headers and body are never read, and
    nothing is written or spawned. *)
Theorem unknown_post_path_404 (env : Env) (p : string) (hs : list (string * string))
    (rf : string) (st : St) :
  is_transform_path p = false ->
  handle env (mkReq POST p hs rf) st = (Some (mkResp 404 (send_response_headers env) NoBody), st).
Proof.
  unfold is_transform_path. intros H. apply orb_false_iff in H as [H1 H2].
  unfold handle, do_POST. cbn [command path]. rewrite H1, H2. reflexivity.
Qed.

Lemma unknown_post_path_404_witness :
  is_transform_path "/api/encrypt/" = false /\
  handle demo_E (mkReq POST "/api/encrypt/" [("Content-Length", "oops")] "{") demo_st
  = (Some (mkResp 404 (send_response_headers demo_E) NoBody), demo_st).
Proof.
  split; [reflexivity|].
  apply unknown_post_path_404. reflexivity.
Defined.

(** X3: a transform request reads only the first Content-Length bytes of
    the stream: when Content-Length is a non-negative integer [n], two
    streams that agree on their first [n] bytes give the same response and
    the same final state, whatever follows. *)
Theorem body_beyond_length_ignored (env : Env) (p : string) (hs : list (string * string))
    (rf1 rf2 : string) (st : St) (n : Z) :
  py_int (header_get hs "Content-Length") = Some n -> (0 <= n)%Z ->
  take_str (Z.to_nat n) rf1 = take_str (Z.to_nat n) rf2 ->
  handle env (mkReq POST p hs rf1) st = handle env (mkReq POST p hs rf2) st.
Proof.
  intros Hn Hpos Htake.
  destruct (is_transform_path p) eqn:Hp.
  - rewrite !handle_transform_branch by reflexivity || exact Hp. cbn [headers rfile path].
    unfold transform_branch, parsed_body. rewrite Hn. unfold rfile_read.
    replace (Z.eqb n (-1)) with false by (symmetry; apply Z.eqb_neq; lia).
    replace (Z.ltb n 0) with false by (symmetry; apply Z.ltb_ge; exact Hpos).
    rewrite Htake. reflexivity.
  - rewrite !unknown_post_path_404 by exact Hp. reflexivity.
Qed.

Lemma body_beyond_length_ignored_witness :
  let hs := headers (post_req "/api/encrypt" body_hello) in
  let n := Z.of_nat (String.length body_hello) in
  py_int (header_get hs "Content-Length") = Some n /\ (0 <= n)%Z /\
  take_str (Z.to_nat n) (body_hello ++ "GARBAGE") = take_str (Z.to_nat n) body_hello /\
  handle demo_E (mkReq POST "/api/encrypt" hs (body_hello ++ "GARBAGE")) demo_st
  = handle demo_E (mkReq POST "/api/encrypt" hs body_hello) demo_st.
Proof.
  intros hs n.
  split; [vm_compute; reflexivity|]. split; [vm_compute; discriminate|].
  split; [vm_compute; reflexivity|].
  apply (body_beyond_length_ignored demo_E "/api/encrypt" hs _ _ demo_st n);
    [vm_compute; reflexivity | vm_compute; discriminate | vm_compute; reflexivity].
Defined.







(** X8: a transform request with no Content-Length header (under any
    letter case) raises when [int(None)] fails: no response is sent and
    nothing is written or spawned. *)
Theorem missing_content_length_raises (env : Env) (req : request) (st : St) :
  command req = POST -> is_transform_path (path req) = true ->
  header_get (headers req) "Content-Length" = None ->
  handle env req st = (None, st).
Proof.
  intros Hc Hp Hh. rewrite handle_transform_branch by assumption.
  unfold transform_branch, parsed_body. rewrite Hh. reflexivity.
Qed.

Lemma missing_content_length_raises_witness :
  let req := mkReq POST "/api/encrypt" [("Host", "localhost:8080")] body_hello in
  header_get (headers req) "Content-Length" = None /\ handle demo_E req demo_st = (None, demo_st).
Proof.
  intros req. split; [reflexivity|].
  apply missing_content_length_raises; reflexivity.
Defined.
